(** * Control widgets used by ShellWidget

    A shallow embedding of [spyder/plugins/ipythonconsole/widgets/control.py]:
    the two [QTextEdit] subclasses [ControlWidget] and [PageControlWidget].

    Every method is a short sequence of calls into the host (Qt, the Spyder
    mixins, the desktop services) interleaved with assignments to a few
    Python attributes.  A method is embedded as a function from the widget to
    the widget after the call together with the ordered list of host calls it
    made.  What the host answers and how it reacts to a call is left open: it
    is an interface ([Host]) every statement quantifies over. *)

From Stdlib Require Import ZArith List Bool Lia String Ascii.
Import ListNotations.

Set Implicit Arguments.

(** ** Python values used by the file *)

Module Py.

(** A [str] is a sequence of Unicode code points. *)
Definition str : Type := list N.

Definition of_string (s : string) : str :=
  List.map N_of_ascii (list_ascii_of_string s).

(** Truth value of an attribute that holds [None] or a [str]:
    [None] and the empty string are false, everything else is true. *)
Definition truthy (v : option str) : bool :=
  match v with
  | None => false
  | Some [] => false
  | Some (_ :: _) => true
  end.

Section Unicode.

(** The character property behind [str.isdigit] (Numeric_Type Digit or
    Decimal in the interpreter's Unicode tables). *)
Variable digit : N -> bool.

(** [s.isdigit()]: all characters are digits and there is at least one. *)
Definition isdigit (s : str) : bool :=
  match s with
  | [] => false
  | _ :: _ => forallb digit s
  end.

End Unicode.

(** The ASCII part of the digit property, ['0'] to ['9']. *)
Definition ascii_digit (c : N) : bool := ((48 <=? c) && (c <=? 57))%N.

End Py.

(** ** Qt values *)

(** [Qt.Key_ParenLeft] and [Qt.Key_Slash]. *)
Definition Key_ParenLeft : Z := 0x28.
Definition Key_Slash : Z := 0x2f.

Inductive CursorShape : Type :=
| ArrowCursor
| PointingHandCursor.

Inductive QUrl : Type := mkQUrl (url : Py.str).

Inductive QColor : Type := mkQColor (name : Py.str).

(** A [QTextFrameFormat]: a freshly built one has none of the three
    properties set. *)
Record QTextFrameFormat : Type := mkFrameFormat {
  frame_height : option Z;
  frame_width : option Z;
  frame_background : option QColor
}.

Definition QTextFrameFormat_new : QTextFrameFormat :=
  mkFrameFormat None None None.

Definition setHeight (h : Z) (f : QTextFrameFormat) : QTextFrameFormat :=
  mkFrameFormat (Some h) (frame_width f) (frame_background f).

Definition setWidth (w : Z) (f : QTextFrameFormat) : QTextFrameFormat :=
  mkFrameFormat (frame_height f) (Some w) (frame_background f).

Definition setBackground (c : QColor) (f : QTextFrameFormat) : QTextFrameFormat :=
  mkFrameFormat (frame_height f) (frame_width f) (Some c).

(** The opaque Qt objects the handlers receive and pass on. *)
Class QtTypes : Type := {
  QWidget : Type;
  QShowEvent : Type;
  QKeyEvent : Type;
  QFocusEvent : Type;
  QMouseEvent : Type;
  QPoint : Type;
  QTextCursor : Type
}.

(** The signals declared by the two classes, with their payload. *)
Inductive signal : Type :=
| visibility_changed (visible : bool)
| sig_go_to_error_requested (text : Py.str)
| focus_changed
| sig_help_requested (name : Py.str) (ignore_unknown : bool)
| show_find_widget.

(** ** Calls into the host

    One constructor per call the file makes on something it does not define
    itself.  [QTextEdit_keyPressEvent] is the explicit
    [QTextEdit.keyPressEvent(self, event)]; the [super_] calls are
    [super(Class, self).method(event)], the next implementation in the
    method resolution order. *)
Inductive call `{QtTypes} : Type :=
| emit (s : signal)
| QTextEdit_keyPressEvent (event : QKeyEvent)
| super_focusInEvent (event : QFocusEvent)
| super_focusOutEvent (event : QFocusEvent)
| super_mouseMoveEvent (event : QMouseEvent)
| super_mouseReleaseEvent (event : QMouseEvent)
| QDesktopServices_openUrl (u : QUrl)
| QApplication_setOverrideCursor (shape : CursorShape)
| QApplication_restoreOverrideCursor
| show_object_info (obj : Py.str)
| insert_text (text : Py.str)
| insertFrame (cursor : QTextCursor) (format : QTextFrameFormat)
| QTextEdit_init (parent : option QWidget)
| BaseEditMixin_init
| TracebackLinksMixin_init
| GetHelpMixin_init
| CallTipWidget_new (hide_timer_on : bool).

(** The result of [restore_keyevent(event)], the tuple
    [(event, text, key, ctrl, shift)]. *)
Record restored `{QtTypes} : Type := mkRestored {
  r_event : QKeyEvent;
  r_text : Py.str;
  r_key : Z;
  r_ctrl : bool;
  r_shift : bool
}.

(** ** The host

    [Q] is the state the file does not own: the document, the text cursor,
    the visibility flag, the attributes kept by the mixins and by the parent
    widget, the application's cursor stack.  The observers are the reads the
    file performs; [host_step] is the reaction of that state to a call.

    [restore_keyevent] (spyder.utils.qthelpers), [COLOR_TEXT_1]
    (spyder.utils.palette.QStylePalette), [get_current_line_to_cursor],
    [get_last_obj], [has_selected_text] and [help_enabled] (spyder.widgets.mixins)
    are defined outside this file and are taken as they come.  The two line
    readers see [current_prompt_pos], the attribute this file assigns for
    them.

    Two things are assumed of the host, as the file assumes them.  The
    widget sits in its console: [self.parent()._reading] and
    [self.parentWidget()._prompt_pos], which the file reads unguarded, have a
    value ([parent_reading], [parentWidget_prompt_pos]).  And a call into the
    host changes [Q] only: the attributes assigned in this file
    ([anchor], [found_results], [calltips], [calltip_widget],
    [current_prompt_pos]) are assigned nowhere else. *)
Class Host `{QtTypes} : Type := {
  Q : Type;
  unicode_digit : N -> bool;
  restore_keyevent : QKeyEvent -> restored;
  COLOR_TEXT_1 : Py.str;
  pos : QMouseEvent -> QPoint;
  anchorAt : Q -> QPoint -> Py.str;
  textCursor : Q -> QTextCursor;
  isVisible : Q -> bool;
  has_selected_text : Q -> bool;
  help_enabled : Q -> bool;
  parent_reading : Q -> bool;
  parentWidget_prompt_pos : Q -> Z;
  get_current_line_to_cursor : option Z -> Q -> option Py.str;
  get_last_obj : option Z -> Q -> option Py.str;
  host_step : call -> Q -> Q
}.

(** ** Handlers: state passing with a log of host calls *)

Section Handler.

Context `{Host}.

(** A subclass of [QTextEdit]: its Python attributes sit next to the host
    state of the same object. *)
Class QTextEditSubclass (S : Type) : Type := {
  qt : S -> Q;
  with_qt : Q -> S -> S
}.

Definition Handler (S A : Type) : Type := S -> A * S * list call.

Definition ret {S A} (a : A) : Handler S A :=
  fun s => (a, s, []).

Definition bind {S A B} (m : Handler S A) (k : A -> Handler S B) : Handler S B :=
  fun s =>
    let '(a, s1, t1) := m s in
    let '(b, s2, t2) := k a s1 in
    (b, s2, t1 ++ t2).

(** Read an attribute of the widget. *)
Definition get {S A} (f : S -> A) : Handler S A :=
  fun s => (f s, s, []).

(** Assign attributes of the widget. *)
Definition set {S} (f : S -> S) : Handler S unit :=
  fun s => (tt, f s, []).

(** Ask the host. *)
Definition ask {S A} `{QTextEditSubclass S} (f : Q -> A) : Handler S A :=
  fun s => (f (qt s), s, []).

(** Call the host: the call is logged and the host state reacts. *)
Definition invoke {S} `{QTextEditSubclass S} (c : call) : Handler S unit :=
  fun s => (tt, with_qt (host_step c (qt s)) s, [c]).

Definition state_of {S A} (r : A * S * list call) : S := snd (fst r).
Definition calls_of {S A} (r : A * S * list call) : list call := snd r.

End Handler.

Declare Scope handler_scope.
Delimit Scope handler_scope with handler.
Notation "x <- m ;; k" := (bind m (fun x => k))
  (at level 61, m at next level, right associativity) : handler_scope.
Notation "m ;; k" := (bind m (fun _ => k))
  (at level 61, right associativity) : handler_scope.
Open Scope handler_scope.

(** ** ControlWidget *)

Module ControlWidget.

Record CallTipWidget : Type := mkCallTip { hide_timer_on : bool }.

Section WithHost.

Context `{Host}.

(** The attributes assigned in this file, and the host state. *)
Record t : Type := mk {
  host : Q;
  calltip_widget : CallTipWidget;
  found_results : list Z;
  calltips : bool;
  anchor : option Py.str;
  current_prompt_pos : option Z
}.

Definition set_host (q : Q) (w : t) : t :=
  mk q (calltip_widget w) (found_results w) (calltips w) (anchor w)
     (current_prompt_pos w).

Definition set_anchor (a : option Py.str) (w : t) : t :=
  mk (host w) (calltip_widget w) (found_results w) (calltips w) a
     (current_prompt_pos w).

Definition set_current_prompt_pos (p : option Z) (w : t) : t :=
  mk (host w) (calltip_widget w) (found_results w) (calltips w) (anchor w) p.

#[global] Instance subclass : QTextEditSubclass t :=
  {| qt := host; with_qt := set_host |}.

(** [__init__(self, parent=None)]: [q] is the host state of the object
    being built. *)
Definition __init__ (parent : option QWidget) (q : Q) : t * list call :=
  let cs := [QTextEdit_init parent; BaseEditMixin_init;
             TracebackLinksMixin_init; GetHelpMixin_init;
             CallTipWidget_new false] in
  (mk (fold_left (fun q c => host_step c q) cs q)
      (mkCallTip false) [] false None None,
   cs).

Definition insert_horizontal_ruler : Handler t unit :=
  let ruler := QTextFrameFormat_new in
  let ruler := setHeight 1 ruler in
  let ruler := setWidth 10000 ruler in
  let ruler := setBackground (mkQColor COLOR_TEXT_1) ruler in
  cursor <- ask textCursor ;;
  invoke (insertFrame cursor ruler).

Definition _key_paren_left (text : Py.str) : Handler t unit :=
  p <- ask parentWidget_prompt_pos ;;
  set (set_current_prompt_pos (Some p)) ;;
  line <- get (fun w => get_current_line_to_cursor (current_prompt_pos w) (host w)) ;;
  (if Py.truthy line then
     last_obj <- get (fun w => get_last_obj (current_prompt_pos w) (host w)) ;;
     match last_obj with
     | Some o =>
         if Py.truthy last_obj && negb (Py.isdigit unicode_digit o)
         then invoke (show_object_info o)
         else ret tt
     | None => ret tt
     end
   else ret tt) ;;
  invoke (insert_text text).

(** What [_key_paren_left] comes to, as a reading of the host: the
    object it asks help for, if any.  It is the last object of a
    non-empty line, when that object is non-empty and not a number. *)
Definition help_target (w : t) : option Py.str :=
  let p := Some (parentWidget_prompt_pos (host w)) in
  if Py.truthy (get_current_line_to_cursor p (host w)) then
    match get_last_obj p (host w) with
    | Some o =>
        if Py.truthy (Some o) && negb (Py.isdigit unicode_digit o)
        then Some o else None
    | None => None
    end
  else None.

Definition showEvent (event : QShowEvent) : Handler t unit :=
  invoke (emit (visibility_changed true)).

(** The test of [keyPressEvent] on the restored key and the host. *)
Definition paren_help (key : Z) (q : Q) : bool :=
  (key =? Key_ParenLeft)%Z && negb (has_selected_text q)
  && help_enabled q && negb (parent_reading q).

Definition keyPressEvent (event : QKeyEvent) : Handler t unit :=
  let r := restore_keyevent event in
  go <- ask (paren_help (r_key r)) ;;
  if go then _key_paren_left (r_text r)
  else invoke (QTextEdit_keyPressEvent (r_event r)).

Definition focusInEvent (event : QFocusEvent) : Handler t unit :=
  invoke (emit focus_changed) ;;
  invoke (super_focusInEvent event).

Definition focusOutEvent (event : QFocusEvent) : Handler t unit :=
  invoke (emit focus_changed) ;;
  invoke (super_focusOutEvent event).

Definition mouseMoveEvent (event : QMouseEvent) : Handler t unit :=
  a <- ask (fun q => anchorAt q (pos event)) ;;
  set (set_anchor (Some a)) ;;
  a <- get anchor ;;
  (if Py.truthy a
   then invoke (QApplication_setOverrideCursor PointingHandCursor)
   else invoke QApplication_restoreOverrideCursor) ;;
  invoke (super_mouseMoveEvent event).

Definition mouseReleaseEvent (event : QMouseEvent) : Handler t unit :=
  a <- get anchor ;;
  match a with
  | Some u =>
      if Py.truthy a then
        invoke (QDesktopServices_openUrl (mkQUrl u)) ;;
        invoke (QApplication_setOverrideCursor ArrowCursor) ;;
        set (set_anchor None)
      else invoke (super_mouseReleaseEvent event)
  | None => invoke (super_mouseReleaseEvent event)
  end.

(** The Qt callbacks the class overrides. *)
Inductive callback : Type :=
| Show (event : QShowEvent)
| KeyPress (event : QKeyEvent)
| FocusIn (event : QFocusEvent)
| FocusOut (event : QFocusEvent)
| MouseMove (event : QMouseEvent)
| MouseRelease (event : QMouseEvent).

Definition handle (cb : callback) : Handler t unit :=
  match cb with
  | Show e => showEvent e
  | KeyPress e => keyPressEvent e
  | FocusIn e => focusInEvent e
  | FocusOut e => focusOutEvent e
  | MouseMove e => mouseMoveEvent e
  | MouseRelease e => mouseReleaseEvent e
  end.

(** What happens to a widget during its life: Qt delivers an event, the
    console calls [insert_horizontal_ruler], or the host state changes
    for a reason of its own (the kernel prints, the parent starts
    reading, the window is hidden). *)
Inductive input : Type :=
| Deliver (cb : callback)
| Ruler
| Elsewhere (f : Q -> Q).

Definition step (i : input) : Handler t unit :=
  match i with
  | Deliver cb => handle cb
  | Ruler => insert_horizontal_ruler
  | Elsewhere f => set (fun w => set_host (f (host w)) w)
  end.

Fixpoint run (inputs : list input) : Handler t unit :=
  match inputs with
  | [] => ret tt
  | i :: rest => step i ;; run rest
  end.

Definition is_mouse_move (i : input) : bool :=
  match i with
  | Deliver (MouseMove _) => true
  | _ => false
  end.

End WithHost.

End ControlWidget.

(** ** PageControlWidget *)

Module PageControlWidget.

Section WithHost.

Context `{Host}.

Record t : Type := mk {
  host : Q;
  found_results : list Z
}.

Definition set_host (q : Q) (w : t) : t := mk q (found_results w).

#[global] Instance subclass : QTextEditSubclass t :=
  {| qt := host; with_qt := set_host |}.

Definition __init__ (parent : option QWidget) (q : Q) : t * list call :=
  let cs := [QTextEdit_init parent; BaseEditMixin_init] in
  (mk (fold_left (fun q c => host_step c q) cs q) [], cs).

Definition showEvent (event : QShowEvent) : Handler t unit :=
  invoke (emit (visibility_changed true)).

(** The test of [keyPressEvent]; [isVisible] is only asked when the key
    is the slash. *)
Definition slash_find (key : Z) (q : Q) : bool :=
  (key =? Key_Slash)%Z && isVisible q.

Definition keyPressEvent (event : QKeyEvent) : Handler t unit :=
  let r := restore_keyevent event in
  go <- ask (slash_find (r_key r)) ;;
  if go then invoke (emit show_find_widget)
  else invoke (QTextEdit_keyPressEvent (r_event r)).

Definition focusInEvent (event : QFocusEvent) : Handler t unit :=
  invoke (emit focus_changed) ;;
  invoke (super_focusInEvent event).

Definition focusOutEvent (event : QFocusEvent) : Handler t unit :=
  invoke (emit focus_changed) ;;
  invoke (super_focusOutEvent event).

Inductive callback : Type :=
| Show (event : QShowEvent)
| KeyPress (event : QKeyEvent)
| FocusIn (event : QFocusEvent)
| FocusOut (event : QFocusEvent).

Definition handle (cb : callback) : Handler t unit :=
  match cb with
  | Show e => showEvent e
  | KeyPress e => keyPressEvent e
  | FocusIn e => focusInEvent e
  | FocusOut e => focusOutEvent e
  end.

End WithHost.

End PageControlWidget.

(** ** Reading a log of host calls *)

Section Logs.

Context `{QtTypes}.

Definition is_emit (c : call) : bool :=
  match c with emit _ => true | _ => false end.

(** The call hands the event to the implementation the class overrides. *)
Definition is_forward (c : call) : bool :=
  match c with
  | QTextEdit_keyPressEvent _ | super_focusInEvent _ | super_focusOutEvent _
  | super_mouseMoveEvent _ | super_mouseReleaseEvent _ => true
  | _ => false
  end.

Definition is_openUrl (c : call) : bool :=
  match c with QDesktopServices_openUrl _ => true | _ => false end.

Definition is_show_object_info (c : call) : bool :=
  match c with show_object_info _ => true | _ => false end.

Definition is_insert_text (c : call) : bool :=
  match c with insert_text _ => true | _ => false end.

Definition is_show_find_widget (c : call) : bool :=
  match c with emit show_find_widget => true | _ => false end.

Definition emits (log : list call) : bool := existsb is_emit log.
Definition forwards (log : list call) : bool := existsb is_forward log.
Definition opens_url (log : list call) : bool := existsb is_openUrl log.
Definition requests_help (log : list call) : bool := existsb is_show_object_info log.
Definition inserts_text (log : list call) : bool := existsb is_insert_text log.

End Logs.

(** ** Callbacks that forward or notify *)

Section DelegationStatements.

Context `{Host}.

(** Modelled from the spec: [show_object_info] is a method of GetHelpMixin
    (spyder.widgets.mixins), which is not under the sources.  The spec lists
    help-requested among the signals the widgets emit, and the class
    declares [sig_help_requested] as "emitted to request help on a given
    object's name": [self.show_object_info(last_obj)] is where a
    ControlWidget emits it.  A call notifies when it is an [emit] of this
    file or that call. *)
Definition is_notification (c : call) : bool :=
  is_emit c || is_show_object_info c.

Definition notifies (log : list call) : bool := existsb is_notification log.

Definition delegates_or_notifies (log : list call) : bool :=
  forwards log || notifies log.

(** Every overridden callback of both classes, on every widget, forwards
    the event or emits a signal. *)
Definition every_callback_delegates_or_emits : Prop :=
  (forall (cb : ControlWidget.callback) (w : ControlWidget.t),
      delegates_or_notifies (calls_of (ControlWidget.handle cb w)) = true) /\
  (forall (cb : PageControlWidget.callback) (p : PageControlWidget.t),
      delegates_or_notifies (calls_of (PageControlWidget.handle cb p)) = true).

(** The two situations in which a ControlWidget neither forwards nor
    notifies: the key press that runs the ['('] helper when the helper finds
    nothing to ask help for, and the mouse release on a non-empty anchor. *)
Definition handled_silently (cb : ControlWidget.callback) (w : ControlWidget.t)
  : bool :=
  match cb with
  | ControlWidget.KeyPress event =>
      ControlWidget.paren_help (r_key (restore_keyevent event))
                               (ControlWidget.host w)
      && match ControlWidget.help_target w with
         | Some _ => false
         | None => true
         end
  | ControlWidget.MouseRelease _ => Py.truthy (ControlWidget.anchor w)
  | _ => false
  end.

End DelegationStatements.

(** ** Whole lives of a widget

    What follows reads logs of whole runs: how often a kind of call occurs,
    and which calls may occur at all. *)

Section LogCounts.

Context `{QtTypes}.

(** How many calls of a log satisfy [p]. *)
Definition count (p : call -> bool) (log : list call) : nat :=
  List.length (filter p log).

Definition is_cursor_call (c : call) : bool :=
  match c with
  | QApplication_setOverrideCursor _ | QApplication_restoreOverrideCursor => true
  | _ => false
  end.

Definition is_super_mouseMoveEvent (c : call) : bool :=
  match c with super_mouseMoveEvent _ => true | _ => false end.

(** The call does not open the empty URL. *)
Definition url_nonempty (c : call) : bool :=
  match c with
  | QDesktopServices_openUrl (mkQUrl []) => false
  | _ => true
  end.

(** The call hands a key press to the document: the event itself, or its
    text. *)
Definition is_key_delivery (c : call) : bool :=
  match c with
  | QTextEdit_keyPressEvent _ | insert_text _ => true
  | _ => false
  end.

(** The call emits [visibility_changed(True)], [focus_changed] or
    [show_find_widget], or forwards a key or focus event. *)
Definition page_call_only (c : call) : bool :=
  match c with
  | emit (visibility_changed true) | emit focus_changed
  | emit show_find_widget => true
  | QTextEdit_keyPressEvent _ | super_focusInEvent _ | super_focusOutEvent _ => true
  | _ => false
  end.

End LogCounts.

Section Lives.

Context `{Host}.

Definition is_mouse_event (i : ControlWidget.input) : bool :=
  match i with
  | ControlWidget.Deliver (ControlWidget.MouseMove _)
  | ControlWidget.Deliver (ControlWidget.MouseRelease _) => true
  | _ => false
  end.

Definition is_key_press (i : ControlWidget.input) : bool :=
  match i with
  | ControlWidget.Deliver (ControlWidget.KeyPress _) => true
  | _ => false
  end.

(** The callbacks Qt delivers to a PageControlWidget, one after the other. *)
Fixpoint page_run (cbs : list PageControlWidget.callback)
  : Handler PageControlWidget.t unit :=
  match cbs with
  | [] => ret tt
  | cb :: rest => PageControlWidget.handle cb ;; page_run rest
  end.

End Lives.

(** ** A small host to run the handlers on

    One line of text, one link at the origin of the viewport, and the flags
    the handlers read.  A key event is its key code and its text; a mouse
    event is the position of the pointer. *)

Module Toy.

#[export] Instance types : QtTypes := {|
  QWidget := unit;
  QShowEvent := unit;
  QKeyEvent := Z * Py.str;
  QFocusEvent := unit;
  QMouseEvent := Z * Z;
  QPoint := Z * Z;
  QTextCursor := nat
|}.

Record state : Type := mk {
  line : Py.str;
  link : Py.str;
  visible : bool;
  selection : bool;
  help : bool;
  reading : bool;
  prompt_pos : Z
}.

Definition react (c : call) (q : state) : state :=
  match c with
  | insert_text t =>
      mk (line q ++ t) (link q) (visible q) (selection q) (help q)
         (reading q) (prompt_pos q)
  | _ => q
  end.

Definition nonempty (s : Py.str) : option Py.str :=
  match s with [] => None | _ :: _ => Some s end.

#[export] Instance host : Host := {|
  Q := state;
  unicode_digit := Py.ascii_digit;
  restore_keyevent := fun e =>
    {| r_event := e; r_text := snd e; r_key := fst e;
       r_ctrl := false; r_shift := false |};
  COLOR_TEXT_1 := Py.of_string "#FAFAFA";
  pos := fun e => e;
  anchorAt := fun q p =>
    if ((fst p =? 0) && (snd p =? 0))%Z then link q else [];
  textCursor := fun q => List.length (line q);
  isVisible := visible;
  has_selected_text := selection;
  help_enabled := help;
  parent_reading := reading;
  parentWidget_prompt_pos := prompt_pos;
  get_current_line_to_cursor := fun _ q => Some (line q);
  get_last_obj := fun _ q => nonempty (line q);
  host_step := react
|}.

Definition url : Py.str := Py.of_string "https://www.spyder-ide.org".

(** A console showing the prompt line ["np.zeros"] with a link at the
    origin, help switched on. *)
Definition console : state :=
  mk (Py.of_string "np.zeros") url true false true false 0.

Definition fresh : ControlWidget.t := fst (ControlWidget.__init__ None console).

Definition pager : PageControlWidget.t :=
  fst (PageControlWidget.__init__ None console).

Definition paren : QKeyEvent := (Key_ParenLeft, Py.of_string "(").
Definition slash : QKeyEvent := (Key_Slash, Py.of_string "/").
Definition letter : QKeyEvent := (0x41%Z, Py.of_string "A").

(** The pointer on the link, and away from it. *)
Definition origin : QMouseEvent := (0, 0)%Z.
Definition elsewhere : QMouseEvent := (30, 4)%Z.

(** The widget after the pointer moved onto the link. *)
Definition hovering : ControlWidget.t :=
  state_of (ControlWidget.mouseMoveEvent origin fresh).

(** A console whose prompt line holds a number. *)
Definition counting : ControlWidget.t :=
  ControlWidget.set_host
    (mk (Py.of_string "2024") [] true false true false 0) fresh.

(** A widget is shown, gets the focus, a ['('] is typed, a ruler is
    inserted, the mouse button is released, the kernel prints and the focus
    leaves: no mouse move among them. *)
Definition no_move_yet : list ControlWidget.input :=
  [ControlWidget.Deliver (ControlWidget.Show tt);
   ControlWidget.Deliver (ControlWidget.FocusIn tt);
   ControlWidget.Deliver (ControlWidget.KeyPress paren);
   ControlWidget.Ruler;
   ControlWidget.Deliver (ControlWidget.MouseRelease origin);
   ControlWidget.Elsewhere (react (insert_text (Py.of_string "Out[1]: 0")));
   ControlWidget.Deliver (ControlWidget.FocusOut tt)].

(** The pointer moves over the link twice, the link is clicked, then the
    button is released again after a key press. *)
Definition two_clicks : list ControlWidget.input :=
  [ControlWidget.Deliver (ControlWidget.MouseMove origin);
   ControlWidget.Deliver (ControlWidget.MouseMove origin);
   ControlWidget.Deliver (ControlWidget.MouseRelease origin);
   ControlWidget.Deliver (ControlWidget.KeyPress letter);
   ControlWidget.Deliver (ControlWidget.MouseRelease origin)].

(** Keys and focus changes between a mouse move and the click. *)
Definition typing : list ControlWidget.input :=
  [ControlWidget.Deliver (ControlWidget.KeyPress paren);
   ControlWidget.Deliver (ControlWidget.FocusOut tt);
   ControlWidget.Elsewhere (react (insert_text (Py.of_string "np.ones")));
   ControlWidget.Ruler;
   ControlWidget.Deliver (ControlWidget.FocusIn tt)].

(** Mouse events and a ruler, no key press. *)
Definition pointing : list ControlWidget.input :=
  [ControlWidget.Deliver (ControlWidget.MouseMove origin);
   ControlWidget.Ruler;
   ControlWidget.Deliver (ControlWidget.MouseRelease elsewhere)].

End Toy.

(** * Properties *)

(** ** Laws of the handler combinators *)

Section HandlerLaws.

Context `{Host}.

Lemma state_of_bind {S A B} (m : Handler S A) (k : A -> Handler S B) (s : S) :
  state_of (bind m k s) = state_of (k (fst (fst (m s))) (state_of (m s))).
Proof.
  unfold bind, state_of.
  destruct (m s) as [[a s1] t1]; cbn.
  destruct (k a s1) as [[b s2] t2]; reflexivity.
Qed.

Lemma calls_of_bind {S A B} (m : Handler S A) (k : A -> Handler S B) (s : S) :
  calls_of (bind m k s) =
  calls_of (m s) ++ calls_of (k (fst (fst (m s))) (state_of (m s))).
Proof.
  unfold bind, calls_of, state_of.
  destruct (m s) as [[a s1] t1]; cbn.
  destruct (k a s1) as [[b s2] t2]; reflexivity.
Qed.

Lemma isdigit_nonempty (d : N -> bool) (s : Py.str) :
  s <> [] -> Py.isdigit d s = forallb d s.
Proof. destruct s; [congruence | reflexivity]. Qed.

End HandlerLaws.

Ltac handler_unfold :=
  unfold bind, ask, get, set, invoke, ret, calls_of, state_of in *; cbn in *.

(** ** The ['('] helper *)

Section ParenLeft.

Context `{Host}.

Import ControlWidget.

Lemma key_paren_left_calls (text : Py.str) (w : ControlWidget.t) :
  calls_of (_key_paren_left text w) =
  match help_target w with
  | Some o => [show_object_info o; insert_text text]
  | None => [insert_text text]
  end.
Proof.
  unfold _key_paren_left, help_target. handler_unfold.
  destruct (Py.truthy (get_current_line_to_cursor _ _)); cbn; [|reflexivity].
  destruct (get_last_obj _ _) as [o|]; cbn; [|reflexivity].
  destruct (_ && negb (Py.isdigit unicode_digit o)); reflexivity.
Qed.

Lemma help_target_spec (w : ControlWidget.t) (o : Py.str) :
  help_target w = Some o <->
  Py.truthy (get_current_line_to_cursor
               (Some (parentWidget_prompt_pos (host w))) (host w)) = true /\
  get_last_obj (Some (parentWidget_prompt_pos (host w))) (host w) = Some o /\
  o <> [] /\ forallb unicode_digit o = false.
Proof.
  unfold help_target.
  destruct (Py.truthy (get_current_line_to_cursor _ _));
    [|split; [discriminate | intros [Hf _]; discriminate]].
  destruct (get_last_obj _ _) as [o'|];
    [|split; [discriminate | intros (_ & Hf & _); discriminate]].
  destruct o' as [|c o'].
  - cbn. split; [discriminate|].
    intros (_ & Ho & Hne & _). injection Ho as <-. congruence.
  - cbn [Py.truthy Py.isdigit andb].
    destruct (forallb unicode_digit (c :: o')) eqn:Hd; cbn [negb].
    + split; [discriminate|].
      intros (_ & Ho & _ & Hf). injection Ho as <-. congruence.
    + split.
      * intros Ho. injection Ho as <-. repeat split; congruence.
      * intros (_ & Ho & _). congruence.
Qed.

(** The helper assigns [current_prompt_pos] and nothing else of the
    widget's own. *)
Lemma key_paren_left_attributes (text : Py.str) (w : ControlWidget.t) :
  let w' := state_of (_key_paren_left text w) in
  anchor w' = anchor w /\
  found_results w' = found_results w /\
  calltips w' = calltips w /\
  calltip_widget w' = calltip_widget w /\
  current_prompt_pos w' = Some (parentWidget_prompt_pos (host w)).
Proof.
  unfold _key_paren_left. handler_unfold.
  destruct (Py.truthy (get_current_line_to_cursor _ _)); cbn; [|tauto].
  destruct (get_last_obj _ _) as [o|]; cbn; [|tauto].
  destruct (_ && negb (Py.isdigit unicode_digit o)); cbn; tauto.
Qed.

End ParenLeft.

(** ** Show and focus events *)

Section Notifications.

Context `{Host}.

(** C6. Every show event, on a ControlWidget and on a PageControlWidget,
    makes the widget emit [visibility_changed] with the value [True]; it is
    the only call the handler makes. *)
Theorem showEvent_emits_visibility_changed_true :
  forall (event : QShowEvent) (w : ControlWidget.t) (p : PageControlWidget.t),
    calls_of (ControlWidget.showEvent event w)
    = [emit (visibility_changed true)] /\
    calls_of (PageControlWidget.showEvent event p)
    = [emit (visibility_changed true)].
Proof. intros; split; reflexivity. Qed.

(** C7. Every focus-in and every focus-out event, on either class, first
    emits [focus_changed] and then hands the same event to the next
    implementation of the handler. *)
Theorem focus_events_emit_then_forward :
  forall (event : QFocusEvent) (w : ControlWidget.t) (p : PageControlWidget.t),
    calls_of (ControlWidget.focusInEvent event w)
    = [emit focus_changed; super_focusInEvent event] /\
    calls_of (ControlWidget.focusOutEvent event w)
    = [emit focus_changed; super_focusOutEvent event] /\
    calls_of (PageControlWidget.focusInEvent event p)
    = [emit focus_changed; super_focusInEvent event] /\
    calls_of (PageControlWidget.focusOutEvent event p)
    = [emit focus_changed; super_focusOutEvent event].
Proof. intros; repeat split; reflexivity. Qed.

End Notifications.

(** ** The horizontal ruler *)

Section Ruler.

Context `{Host}.

Import ControlWidget.

(** C8. [insert_horizontal_ruler] makes one call: it inserts, with the
    widget's current text cursor, a frame of height 1 and width 10000 whose
    background is [QColor(QStylePalette.COLOR_TEXT_1)].  None of the
    widget's own attributes changes; the host state changes by that one
    insertion. *)
Theorem insert_horizontal_ruler_inserts_themed_frame :
  forall w : ControlWidget.t,
    let out := insert_horizontal_ruler w in
    let ruler := mkFrameFormat (Some 1%Z) (Some 10000%Z)
                               (Some (mkQColor COLOR_TEXT_1)) in
    let inserted := insertFrame (textCursor (host w)) ruler in
    calls_of out = [inserted] /\
    state_of out = set_host (host_step inserted (host w)) w /\
    anchor (state_of out) = anchor w /\
    found_results (state_of out) = found_results w /\
    calltips (state_of out) = calltips w /\
    calltip_widget (state_of out) = calltip_widget w /\
    current_prompt_pos (state_of out) = current_prompt_pos w.
Proof. intros; repeat split; reflexivity. Qed.

End Ruler.

(** ** Anchors *)

Section Anchors.

Context `{Host}.

Import ControlWidget.

(** C1. A mouse move overwrites [anchor] with what [anchorAt] answers for
    the position of the event.  When that anchor is non-empty the override
    cursor is set to the pointing hand, otherwise the override cursor is
    restored; the event then goes to the next implementation.  A mouse
    release that opens an anchor leaves [anchor] at [None]. *)
Theorem mouseMoveEvent_tracks_anchor :
  forall (event : QMouseEvent) (w : ControlWidget.t),
    let moved := mouseMoveEvent event w in
    let released := mouseReleaseEvent event w in
    anchor (state_of moved) = Some (anchorAt (host w) (pos event)) /\
    calls_of moved
    = [if Py.truthy (anchor (state_of moved))
       then QApplication_setOverrideCursor PointingHandCursor
       else QApplication_restoreOverrideCursor;
       super_mouseMoveEvent event] /\
    (opens_url (calls_of released) = true -> anchor (state_of released) = None).
Proof.
  intros event w; cbn zeta.
  unfold mouseMoveEvent, mouseReleaseEvent. handler_unfold.
  split; [|split].
  - destruct (anchorAt (host w) (pos event)); reflexivity.
  - destruct (anchorAt (host w) (pos event)); reflexivity.
  - destruct (anchor w) as [[|c u]|]; cbn; intros Hopen;
      try discriminate; reflexivity.
Qed.

(** C2. A mouse release with a non-empty [anchor] opens that anchor with
    [QDesktopServices.openUrl] and does not forward the event; with
    [anchor] at [None] or empty it forwards the event and opens nothing.
    Exactly one of the two happens. *)
Theorem mouseReleaseEvent_opens_or_forwards :
  forall (event : QMouseEvent) (w : ControlWidget.t),
    let log := calls_of (mouseReleaseEvent event w) in
    (Py.truthy (anchor w) = true ->
     exists u, anchor w = Some u /\
               log = [QDesktopServices_openUrl (mkQUrl u);
                      QApplication_setOverrideCursor ArrowCursor]) /\
    (Py.truthy (anchor w) = false -> log = [super_mouseReleaseEvent event]) /\
    opens_url log = Py.truthy (anchor w) /\
    forwards log = negb (Py.truthy (anchor w)) /\
    opens_url log = negb (forwards log).
Proof.
  intros event w; cbn zeta.
  unfold mouseReleaseEvent. handler_unfold.
  destruct (anchor w) as [[|c u]|]; cbn; repeat split;
    try discriminate; try reflexivity.
  intros _. exists (c :: u). split; reflexivity.
Qed.

End Anchors.

(** ** Key presses *)

Section Keys.

Context `{Host}.

Lemma paren_help_spec (key : Z) (q : Q) :
  ControlWidget.paren_help key q = true <->
  key = Key_ParenLeft /\ has_selected_text q = false /\
  help_enabled q = true /\ parent_reading q = false.
Proof.
  unfold ControlWidget.paren_help.
  rewrite !andb_true_iff, !negb_true_iff, Z.eqb_eq. tauto.
Qed.

Lemma slash_find_spec (key : Z) (q : Q) :
  PageControlWidget.slash_find key q = true <->
  key = Key_Slash /\ isVisible q = true.
Proof.
  unfold PageControlWidget.slash_find.
  rewrite andb_true_iff, Z.eqb_eq. tauto.
Qed.

Lemma keyPressEvent_unfold (event : QKeyEvent) (w : ControlWidget.t) :
  ControlWidget.keyPressEvent event w =
  let r := restore_keyevent event in
  if ControlWidget.paren_help (r_key r) (ControlWidget.host w)
  then
    let '(a, s, t) := ControlWidget._key_paren_left (r_text r) w in
    (a, s, [] ++ t)
  else invoke (QTextEdit_keyPressEvent (r_event r)) w.
Proof.
  unfold ControlWidget.keyPressEvent, bind, ask; cbn.
  destruct (ControlWidget.paren_help _ _); reflexivity.
Qed.

Import ControlWidget.

(** C3. On a key press the ['('] helper runs exactly when the restored key
    is [Key_ParenLeft], no text is selected, help is enabled and the parent
    is not reading.  When it runs, the widget ends as the helper leaves it,
    the helper's calls are the handler's calls and nothing is forwarded.
    In every other case the only call is [QTextEdit.keyPressEvent] on the
    event [restore_keyevent] returned, no attribute of the widget changes,
    and that event is the one received whenever [restore_keyevent] hands
    its argument back. *)
Theorem keyPressEvent_paren_or_forward :
  forall (event : QKeyEvent) (w : ControlWidget.t),
    let r := restore_keyevent event in
    let q := host w in
    let out := keyPressEvent event w in
    let helper := _key_paren_left (r_text r) w in
    (paren_help (r_key r) q = true <->
     r_key r = Key_ParenLeft /\ has_selected_text q = false /\
     help_enabled q = true /\ parent_reading q = false) /\
    inserts_text (calls_of out) = paren_help (r_key r) q /\
    forwards (calls_of out) = negb (paren_help (r_key r) q) /\
    (paren_help (r_key r) q = true ->
     state_of out = state_of helper /\ calls_of out = calls_of helper) /\
    (paren_help (r_key r) q = false ->
     calls_of out = [QTextEdit_keyPressEvent (r_event r)] /\
     state_of out
     = set_host (host_step (QTextEdit_keyPressEvent (r_event r)) q) w) /\
    (paren_help (r_key r) q = false -> r_event r = event ->
     calls_of out = [QTextEdit_keyPressEvent event]).
Proof.
  intros event w; cbn zeta.
  split; [apply paren_help_spec|].
  rewrite keyPressEvent_unfold; cbn zeta.
  destruct (paren_help _ _) eqn:Hgo.
  - pose proof (key_paren_left_calls (r_text (restore_keyevent event)) w) as Hc.
    destruct (_key_paren_left _ w) as [[a s] t] eqn:Hk.
    unfold calls_of, state_of in *; cbn in *. subst t.
    repeat split; try discriminate;
      destruct (help_target w); reflexivity.
  - unfold invoke, calls_of, state_of; cbn.
    repeat split; try discriminate; try reflexivity.
    intros _ ->; reflexivity.
Qed.

(** C5. On a key press a PageControlWidget emits [show_find_widget]
    exactly when the restored key is [Key_Slash] and the widget is visible,
    and then forwards nothing.  In every other case the only call is
    [QTextEdit.keyPressEvent] on the event [restore_keyevent] returned,
    which is the event received whenever [restore_keyevent] hands its
    argument back, and [show_find_widget] is not emitted. *)
Theorem page_keyPressEvent_slash_or_forward :
  forall (event : QKeyEvent) (p : PageControlWidget.t),
    let r := restore_keyevent event in
    let q := PageControlWidget.host p in
    let log := calls_of (PageControlWidget.keyPressEvent event p) in
    (PageControlWidget.slash_find (r_key r) q = true <->
     r_key r = Key_Slash /\ isVisible q = true) /\
    existsb is_show_find_widget log = PageControlWidget.slash_find (r_key r) q /\
    forwards log = negb (PageControlWidget.slash_find (r_key r) q) /\
    (PageControlWidget.slash_find (r_key r) q = true ->
     log = [emit show_find_widget]) /\
    (PageControlWidget.slash_find (r_key r) q = false ->
     log = [QTextEdit_keyPressEvent (r_event r)]) /\
    (PageControlWidget.slash_find (r_key r) q = false -> r_event r = event ->
     log = [QTextEdit_keyPressEvent event]).
Proof.
  intros event p; cbn zeta.
  split; [apply slash_find_spec|].
  unfold PageControlWidget.keyPressEvent. handler_unfold.
  destruct (PageControlWidget.slash_find _ _); cbn;
    repeat split; try discriminate; try reflexivity.
  intros _ ->; reflexivity.
Qed.

(** C10. [_key_paren_left] calls [show_object_info] exactly when the line
    up to the cursor is non-empty and the last object on it is there, is
    non-empty and is not made of digits only; the object shown is that last
    object.  In every case the last call inserts the text the helper was
    given, and it is the only insertion. *)
Theorem key_paren_left_help_then_insert :
  forall (text : Py.str) (w : ControlWidget.t),
    let log := calls_of (_key_paren_left text w) in
    let p := Some (parentWidget_prompt_pos (host w)) in
    (requests_help log = true <->
     Py.truthy (get_current_line_to_cursor p (host w)) = true /\
     exists o, get_last_obj p (host w) = Some o /\ o <> [] /\
               forallb unicode_digit o = false) /\
    (forall o, requests_help log = true -> get_last_obj p (host w) = Some o ->
               log = [show_object_info o; insert_text text]) /\
    (requests_help log = false -> log = [insert_text text]) /\
    (exists before, log = before ++ [insert_text text] /\
                    inserts_text before = false).
Proof.
  intros text w; cbn zeta.
  rewrite key_paren_left_calls.
  pose proof (help_target_spec w) as Hspec.
  destruct (help_target w) as [o|]; cbn.
  - split; [|split; [|split]].
    + split; [intros _|reflexivity].
      destruct (proj1 (Hspec o) eq_refl) as (Hl & Ho & Hne & Hd).
      split; [exact Hl | exists o; auto].
    + intros o' _ Ho'.
      destruct (proj1 (Hspec o) eq_refl) as (_ & Ho & _).
      rewrite Ho in Ho'. injection Ho' as <-. reflexivity.
    + discriminate.
    + exists [show_object_info o]; split; reflexivity.
  - split; [|split; [|split]].
    + split; [discriminate|].
      intros (Hl & o & Ho & Hne & Hd).
      assert (Hn : None = Some o) by (apply Hspec; auto).
      discriminate.
    + discriminate.
    + reflexivity.
    + exists []; split; reflexivity.
Qed.

End Keys.

(** ** Delegation *)

Section Delegation.

Context `{Host}.

(** C4, with its two exceptions. A callback of a PageControlWidget always
    forwards the event or emits a signal.  A callback of a ControlWidget
    forwards the event or emits a signal (one of its own, or
    [sig_help_requested] through [show_object_info]) except in exactly two
    situations, where it does neither: the key press that runs the ['(']
    helper when no help is asked for, which only inserts the text, and the
    mouse release on a non-empty anchor, which only opens the link and sets
    the arrow cursor. *)
Theorem callbacks_delegate_or_notify_unless_handled_silently :
  forall (cb : ControlWidget.callback) (w : ControlWidget.t)
         (pcb : PageControlWidget.callback) (p : PageControlWidget.t),
    let log := calls_of (ControlWidget.handle cb w) in
    delegates_or_notifies log = negb (handled_silently cb w) /\
    (handled_silently cb w = true ->
     match cb with
     | ControlWidget.KeyPress event =>
         log = [insert_text (r_text (restore_keyevent event))]
     | ControlWidget.MouseRelease _ =>
         exists u, ControlWidget.anchor w = Some u /\
                   log = [QDesktopServices_openUrl (mkQUrl u);
                          QApplication_setOverrideCursor ArrowCursor]
     | _ => False
     end) /\
    delegates_or_notifies (calls_of (PageControlWidget.handle pcb p)) = true.
Proof.
  intros cb w pcb p; cbn zeta. split; [|split].
  - destruct cb as [e|e|e|e|e|e]; cbn [ControlWidget.handle handled_silently];
      try reflexivity.
    + rewrite keyPressEvent_unfold; cbn zeta.
      destruct (ControlWidget.paren_help _ _); [|reflexivity].
      pose proof (key_paren_left_calls (r_text (restore_keyevent e)) w) as Hc.
      destruct (ControlWidget._key_paren_left _ w) as [[a s] t].
      unfold calls_of in *; cbn in *. subst t.
      destruct (ControlWidget.help_target w); reflexivity.
    + unfold ControlWidget.mouseMoveEvent. handler_unfold.
      destruct (anchorAt _ _); reflexivity.
    + unfold ControlWidget.mouseReleaseEvent. handler_unfold.
      destruct (ControlWidget.anchor w) as [[|c u]|]; reflexivity.
  - destruct cb as [e|e|e|e|e|e]; cbn [ControlWidget.handle handled_silently];
      try discriminate.
    + rewrite keyPressEvent_unfold; cbn zeta.
      destruct (ControlWidget.paren_help _ _); [|discriminate].
      pose proof (key_paren_left_calls (r_text (restore_keyevent e)) w) as Hc.
      destruct (ControlWidget._key_paren_left _ w) as [[a s] t].
      unfold calls_of in *; cbn in *. subst t.
      destruct (ControlWidget.help_target w); [discriminate | reflexivity].
    + unfold ControlWidget.mouseReleaseEvent. handler_unfold.
      destruct (ControlWidget.anchor w) as [[|c u]|]; cbn; try discriminate.
      intros _. exists (c :: u). split; reflexivity.
  - destruct pcb as [e|e|e|e]; cbn [PageControlWidget.handle];
      try reflexivity.
    unfold PageControlWidget.keyPressEvent. handler_unfold.
    destruct (PageControlWidget.slash_find _ _); reflexivity.
Qed.

End Delegation.

(** ** From construction to the first mouse move *)

Section Lifecycle.

Context `{Host}.

Import ControlWidget.

Lemma release_without_anchor (event : QMouseEvent) (w : ControlWidget.t) :
  anchor w = None ->
  mouseReleaseEvent event w = invoke (super_mouseReleaseEvent event) w.
Proof.
  intros Ha. unfold mouseReleaseEvent, bind, get. rewrite Ha. cbn.
  reflexivity.
Qed.

Lemma keyPressEvent_anchor (event : QKeyEvent) (w : ControlWidget.t) :
  anchor (state_of (keyPressEvent event w)) = anchor w.
Proof.
  rewrite keyPressEvent_unfold; cbn zeta.
  destruct (paren_help _ _); [|reflexivity].
  pose proof (key_paren_left_attributes (r_text (restore_keyevent event)) w)
    as Hk; cbn zeta in Hk.
  destruct (_key_paren_left _ w) as [[a s] t].
  unfold state_of in *; cbn in *. tauto.
Qed.

(** Nothing but a mouse move gives [anchor] a value. *)
Lemma step_keeps_no_anchor (i : input) (w : ControlWidget.t) :
  is_mouse_move i = false ->
  anchor w = None ->
  anchor (state_of (step i w)) = None.
Proof.
  intros Hi Ha.
  destruct i as [[e|e|e|e|e|e]| |f]; cbn [step handle]; try discriminate;
    try exact Ha.
  - rewrite keyPressEvent_anchor. exact Ha.
  - rewrite release_without_anchor by exact Ha. exact Ha.
Qed.

Lemma run_keeps_no_anchor (inputs : list input) :
  existsb is_mouse_move inputs = false ->
  forall w : ControlWidget.t,
    anchor w = None -> anchor (state_of (run inputs w)) = None.
Proof.
  induction inputs as [|i rest IH]; intros Hno w Ha.
  - exact Ha.
  - cbn [existsb] in Hno. apply orb_false_iff in Hno as [Hi Hrest].
    cbn [run]. rewrite state_of_bind.
    apply IH; [exact Hrest|].
    apply step_keeps_no_anchor; assumption.
Qed.

(** C9. Right after [__init__], [anchor] is [None], [found_results] is the
    empty list and [calltips] is [False].  Whatever reaches the widget
    afterwards, as long as no mouse move does, a mouse release is forwarded
    and opens no URL. *)
Theorem release_before_any_move_is_forwarded :
  forall (parent : option QWidget) (q : Q),
    let w0 := fst (__init__ parent q) in
    anchor w0 = None /\ found_results w0 = [] /\ calltips w0 = false /\
    forall (inputs : list input) (event : QMouseEvent),
      existsb is_mouse_move inputs = false ->
      let log := calls_of (mouseReleaseEvent event (state_of (run inputs w0))) in
      log = [super_mouseReleaseEvent event] /\
      forwards log = true /\ opens_url log = false.
Proof.
  intros parent q; cbn zeta.
  repeat (split; [reflexivity|]).
  intros inputs event Hno.
  rewrite release_without_anchor.
  - repeat split; reflexivity.
  - apply run_keeps_no_anchor; [exact Hno | reflexivity].
Qed.

End Lifecycle.

(** ** The handlers at work on the small host *)

Section Runs.

Import Toy.
Import ControlWidget.

Example move_onto_link :
  anchor hovering = Some url /\
  calls_of (mouseMoveEvent origin fresh)
  = [QApplication_setOverrideCursor PointingHandCursor;
     super_mouseMoveEvent origin].
Proof. split; reflexivity. Qed.

Example move_off_link :
  anchor (state_of (mouseMoveEvent elsewhere hovering)) = Some [] /\
  calls_of (mouseMoveEvent elsewhere hovering)
  = [QApplication_restoreOverrideCursor; super_mouseMoveEvent elsewhere].
Proof. split; reflexivity. Qed.

Example click_on_link :
  calls_of (mouseReleaseEvent origin hovering)
  = [QDesktopServices_openUrl (mkQUrl url);
     QApplication_setOverrideCursor ArrowCursor] /\
  anchor (state_of (mouseReleaseEvent origin hovering)) = None.
Proof. split; reflexivity. Qed.

Example paren_after_name :
  calls_of (keyPressEvent paren fresh)
  = [show_object_info (Py.of_string "np.zeros");
     insert_text (Py.of_string "(")].
Proof. reflexivity. Qed.

Example paren_after_number :
  calls_of (keyPressEvent paren counting) = [insert_text (Py.of_string "(")].
Proof. reflexivity. Qed.

Example letter_is_forwarded :
  calls_of (keyPressEvent letter fresh) = [QTextEdit_keyPressEvent letter].
Proof. reflexivity. Qed.

(** C4, as stated, fails, in two ways.  A mouse release on a widget whose
    pointer rests on a link opens the link and sets the arrow cursor; a
    ['('] typed after a number only inserts the text.  Neither forwards the
    event, and neither emits a signal, be it through [show_object_info]. *)
Lemma silent_callbacks_neither_delegate_nor_emit :
  calls_of (handle (MouseRelease origin) hovering)
  = [QDesktopServices_openUrl (mkQUrl url);
     QApplication_setOverrideCursor ArrowCursor] /\
  delegates_or_notifies (calls_of (handle (MouseRelease origin) hovering)) = false /\
  calls_of (handle (KeyPress paren) counting) = [insert_text (Py.of_string "(")] /\
  delegates_or_notifies (calls_of (handle (KeyPress paren) counting)) = false /\
  ~ every_callback_delegates_or_emits.
Proof.
  repeat (split; [reflexivity|]).
  intros [Hcontrol _].
  specialize (Hcontrol (MouseRelease origin) hovering).
  vm_compute in Hcontrol. discriminate.
Qed.

Lemma callbacks_delegate_or_notify_unless_handled_silently_witness :
  handled_silently (KeyPress paren) counting = true /\
  calls_of (handle (KeyPress paren) counting) = [insert_text (Py.of_string "(")].
Proof.
  split; [reflexivity|].
  exact (proj1 (proj2 (@callbacks_delegate_or_notify_unless_handled_silently
                         Toy.types Toy.host (KeyPress paren) counting
                         (PageControlWidget.Show tt) pager)) eq_refl).
Defined.

Lemma mouseMoveEvent_tracks_anchor_witness :
  opens_url (calls_of (mouseReleaseEvent origin hovering)) = true /\
  anchor (state_of (mouseReleaseEvent origin hovering)) = None.
Proof.
  split; [reflexivity|].
  apply (proj2 (proj2 (mouseMoveEvent_tracks_anchor origin hovering))).
  reflexivity.
Defined.

Lemma mouseReleaseEvent_opens_or_forwards_witness :
  (Py.truthy (anchor hovering) = true /\
   exists u, anchor hovering = Some u /\
             calls_of (mouseReleaseEvent origin hovering)
             = [QDesktopServices_openUrl (mkQUrl u);
                QApplication_setOverrideCursor ArrowCursor]) /\
  (Py.truthy (anchor fresh) = false /\
   calls_of (mouseReleaseEvent origin fresh) = [super_mouseReleaseEvent origin]).
Proof.
  split; (split; [reflexivity|]).
  - apply (proj1 (mouseReleaseEvent_opens_or_forwards origin hovering)).
    reflexivity.
  - apply (proj1 (proj2 (mouseReleaseEvent_opens_or_forwards origin fresh))).
    reflexivity.
Defined.

Lemma keyPressEvent_paren_or_forward_witness :
  (paren_help (r_key (restore_keyevent paren)) (host fresh) = true /\
   calls_of (keyPressEvent paren fresh)
   = calls_of (_key_paren_left (Py.of_string "(") fresh)) /\
  (paren_help (r_key (restore_keyevent letter)) (host fresh) = false /\
   r_event (restore_keyevent letter) = letter /\
   calls_of (keyPressEvent letter fresh) = [QTextEdit_keyPressEvent letter]).
Proof.
  pose proof (keyPressEvent_paren_or_forward paren fresh) as Hp.
  pose proof (keyPressEvent_paren_or_forward letter fresh) as Hl.
  cbn zeta in Hp, Hl.
  destruct Hp as (_ & _ & _ & Hrun & _).
  destruct Hl as (_ & _ & _ & _ & _ & Hfwd).
  split; [split; [reflexivity | apply Hrun; reflexivity]|].
  split; [reflexivity | split; [reflexivity | apply Hfwd; reflexivity]].
Defined.

Lemma page_keyPressEvent_slash_or_forward_witness :
  (PageControlWidget.slash_find (r_key (restore_keyevent slash))
                                (PageControlWidget.host pager) = true /\
   calls_of (PageControlWidget.keyPressEvent slash pager)
   = [emit show_find_widget]) /\
  (PageControlWidget.slash_find (r_key (restore_keyevent letter))
                                (PageControlWidget.host pager) = false /\
   r_event (restore_keyevent letter) = letter /\
   calls_of (PageControlWidget.keyPressEvent letter pager)
   = [QTextEdit_keyPressEvent letter]).
Proof.
  pose proof (page_keyPressEvent_slash_or_forward slash pager) as Hs.
  pose proof (page_keyPressEvent_slash_or_forward letter pager) as Hl.
  cbn zeta in Hs, Hl.
  destruct Hs as (_ & _ & _ & Hemit & _).
  destruct Hl as (_ & _ & _ & _ & _ & Hfwd).
  split; [split; [reflexivity | apply Hemit; reflexivity]|].
  split; [reflexivity | split; [reflexivity | apply Hfwd; reflexivity]].
Defined.

Lemma release_before_any_move_is_forwarded_witness :
  existsb is_mouse_move no_move_yet = false /\
  calls_of (mouseReleaseEvent origin (state_of (run no_move_yet fresh)))
  = [super_mouseReleaseEvent origin].
Proof.
  split; [reflexivity|].
  apply (proj2 (proj2 (proj2
           (@release_before_any_move_is_forwarded Toy.types Toy.host None console)))
           no_move_yet origin).
  reflexivity.
Defined.

Lemma key_paren_left_help_then_insert_witness :
  requests_help (calls_of (_key_paren_left (Py.of_string "(") fresh)) = true /\
  calls_of (_key_paren_left (Py.of_string "(") fresh)
  = [show_object_info (Py.of_string "np.zeros");
     insert_text (Py.of_string "(")].
Proof.
  split; [reflexivity|].
  apply (proj1 (proj2
           (key_paren_left_help_then_insert (Py.of_string "(") fresh))
           (Py.of_string "np.zeros"));
    reflexivity.
Defined.

End Runs.

(** ** Runs, one input at a time *)

Section RunLaws.

Context `{Host}.

Import ControlWidget.

Lemma run_cons_state (i : input) (rest : list input) (w : ControlWidget.t) :
  state_of (run (i :: rest) w) = state_of (run rest (state_of (step i w))).
Proof. cbn [run]. rewrite state_of_bind. reflexivity. Qed.

Lemma run_cons_calls (i : input) (rest : list input) (w : ControlWidget.t) :
  calls_of (run (i :: rest) w)
  = calls_of (step i w) ++ calls_of (run rest (state_of (step i w))).
Proof. cbn [run]. rewrite calls_of_bind. reflexivity. Qed.

Lemma count_app (p : call -> bool) (a b : list call) :
  count p (a ++ b) = count p a + count p b.
Proof. unfold count. rewrite filter_app, length_app. reflexivity. Qed.

(** A property of every call of every step is a property of every call of
    every run. *)
Lemma run_forallb (p : call -> bool) :
  (forall i w, forallb p (calls_of (step i w)) = true) ->
  forall inputs w, forallb p (calls_of (run inputs w)) = true.
Proof.
  intros Hstep inputs.
  induction inputs as [|i rest IH]; intros w; [reflexivity|].
  rewrite run_cons_calls, forallb_app, Hstep, IH. reflexivity.
Qed.

Lemma keyPressEvent_calls (event : QKeyEvent) (w : ControlWidget.t) :
  calls_of (keyPressEvent event w)
  = if paren_help (r_key (restore_keyevent event)) (host w)
    then match help_target w with
         | Some o => [show_object_info o;
                      insert_text (r_text (restore_keyevent event))]
         | None => [insert_text (r_text (restore_keyevent event))]
         end
    else [QTextEdit_keyPressEvent (r_event (restore_keyevent event))].
Proof.
  rewrite keyPressEvent_unfold; cbn zeta.
  destruct (paren_help _ _); [|reflexivity].
  pose proof (key_paren_left_calls (r_text (restore_keyevent event)) w) as Hc.
  destruct (_key_paren_left _ w) as [[a s] t].
  unfold calls_of in *; cbn in *. exact Hc.
Qed.

Lemma keyPressEvent_state (event : QKeyEvent) (w : ControlWidget.t) :
  state_of (keyPressEvent event w)
  = if paren_help (r_key (restore_keyevent event)) (host w)
    then state_of (_key_paren_left (r_text (restore_keyevent event)) w)
    else set_host (host_step (QTextEdit_keyPressEvent
                                (r_event (restore_keyevent event))) (host w)) w.
Proof.
  rewrite keyPressEvent_unfold; cbn zeta.
  destruct (paren_help _ _); [|reflexivity].
  destruct (_key_paren_left _ w) as [[a s] t]. reflexivity.
Qed.

(** What one input leaves alone. *)
Lemma step_frame (i : input) (w : ControlWidget.t) :
  let w' := state_of (step i w) in
  found_results w' = found_results w /\
  calltips w' = calltips w /\
  calltip_widget w' = calltip_widget w /\
  (is_mouse_event i = false -> anchor w' = anchor w) /\
  (is_key_press i = false -> current_prompt_pos w' = current_prompt_pos w).
Proof.
  destruct i as [[e|e|e|e|e|e]| |f]; cbn [step handle is_mouse_event is_key_press];
    try (repeat split; intros; (reflexivity || congruence)).
  - rewrite keyPressEvent_state.
    destruct (paren_help _ _).
    + pose proof (key_paren_left_attributes (r_text (restore_keyevent e)) w)
        as Hk; cbn zeta in Hk.
      repeat split; intros; try discriminate; tauto.
    + repeat split; intros; (reflexivity || congruence).
  - unfold mouseMoveEvent. handler_unfold.
    destruct (anchorAt (host w) (pos e)); cbn;
      repeat split; intros; (reflexivity || congruence).
  - unfold mouseReleaseEvent. handler_unfold.
    destruct (anchor w) as [[|c u]|]; cbn;
      repeat split; intros; (reflexivity || congruence).
Qed.

(** A mouse release leaves no anchor to open. *)
Lemma release_leaves_nothing_to_open (event : QMouseEvent) (w : ControlWidget.t) :
  Py.truthy (anchor (state_of (mouseReleaseEvent event w))) = false.
Proof.
  unfold mouseReleaseEvent. handler_unfold.
  destruct (anchor w) as [[|c u]|] eqn:Ha; cbn; rewrite ?Ha; reflexivity.
Qed.

Lemma step_keeps_nothing_to_open (i : input) (w : ControlWidget.t) :
  is_mouse_move i = false ->
  Py.truthy (anchor w) = false ->
  Py.truthy (anchor (state_of (step i w))) = false.
Proof.
  intros Hi Ha.
  destruct (is_mouse_event i) eqn:Hm.
  - destruct i as [[e|e|e|e|e|e]| |f]; try discriminate.
    apply release_leaves_nothing_to_open.
  - destruct (step_frame i w) as (_ & _ & _ & Hanchor & _).
    rewrite (Hanchor Hm). exact Ha.
Qed.

Lemma run_keeps_nothing_to_open (inputs : list input) :
  existsb is_mouse_move inputs = false ->
  forall w : ControlWidget.t,
    Py.truthy (anchor w) = false ->
    Py.truthy (anchor (state_of (run inputs w))) = false.
Proof.
  induction inputs as [|i rest IH]; intros Hno w Ha; [exact Ha|].
  cbn [existsb] in Hno. apply orb_false_iff in Hno as [Hi Hrest].
  rewrite run_cons_state.
  apply IH; [exact Hrest | apply step_keeps_nothing_to_open; assumption].
Qed.

Lemma run_keeps_anchor (inputs : list input) :
  existsb is_mouse_event inputs = false ->
  forall w : ControlWidget.t, anchor (state_of (run inputs w)) = anchor w.
Proof.
  induction inputs as [|i rest IH]; intros Hno w; [reflexivity|].
  cbn [existsb] in Hno. apply orb_false_iff in Hno as [Hi Hrest].
  rewrite run_cons_state, (IH Hrest).
  destruct (step_frame i w) as (_ & _ & _ & Hanchor & _). auto.
Qed.

Lemma run_keeps_prompt_pos (inputs : list input) :
  existsb is_key_press inputs = false ->
  forall w : ControlWidget.t,
    current_prompt_pos (state_of (run inputs w)) = current_prompt_pos w.
Proof.
  induction inputs as [|i rest IH]; intros Hno w; [reflexivity|].
  cbn [existsb] in Hno. apply orb_false_iff in Hno as [Hi Hrest].
  rewrite run_cons_state, (IH Hrest).
  destruct (step_frame i w) as (_ & _ & _ & _ & Hpos). auto.
Qed.

End RunLaws.

(** ** The log of one input *)

Section StepLogs.

Context `{Host}.

Import ControlWidget.

Lemma mouseMoveEvent_anchor (event : QMouseEvent) (w : ControlWidget.t) :
  anchor (state_of (mouseMoveEvent event w))
  = Some (anchorAt (host w) (pos event)).
Proof.
  unfold mouseMoveEvent. handler_unfold.
  destruct (anchorAt (host w) (pos event)); reflexivity.
Qed.

Lemma mouseReleaseEvent_calls (event : QMouseEvent) (w : ControlWidget.t) :
  calls_of (mouseReleaseEvent event w)
  = match anchor w with
    | Some (c :: u) => [QDesktopServices_openUrl (mkQUrl (c :: u));
                        QApplication_setOverrideCursor ArrowCursor]
    | _ => [super_mouseReleaseEvent event]
    end.
Proof.
  unfold mouseReleaseEvent. handler_unfold.
  destruct (anchor w) as [[|c u]|]; reflexivity.
Qed.

Lemma step_calls (i : input) (w : ControlWidget.t) :
  calls_of (step i w)
  = match i with
    | Deliver (Show _) => [emit (visibility_changed true)]
    | Deliver (KeyPress e) => calls_of (keyPressEvent e w)
    | Deliver (FocusIn e) => [emit focus_changed; super_focusInEvent e]
    | Deliver (FocusOut e) => [emit focus_changed; super_focusOutEvent e]
    | Deliver (MouseMove e) =>
        [match anchorAt (host w) (pos e) with
         | [] => QApplication_restoreOverrideCursor
         | _ :: _ => QApplication_setOverrideCursor PointingHandCursor
         end;
         super_mouseMoveEvent e]
    | Deliver (MouseRelease e) => calls_of (mouseReleaseEvent e w)
    | Ruler => calls_of (insert_horizontal_ruler w)
    | Elsewhere _ => []
    end.
Proof.
  destruct i as [[e|e|e|e|e|e]| |f]; cbn [step handle]; try reflexivity.
  unfold mouseMoveEvent. handler_unfold.
  destruct (anchorAt (host w) (pos e)); reflexivity.
Qed.

(** Step by step, a predicate that holds of the calls of each kind of input
    holds of the whole step. *)
Lemma step_forallb (p : call -> bool) :
  p (emit (visibility_changed true)) = true ->
  p (emit focus_changed) = true ->
  (forall e, p (QTextEdit_keyPressEvent e) = true) ->
  (forall o, p (show_object_info o) = true) ->
  (forall t, p (insert_text t) = true) ->
  (forall e, p (super_focusInEvent e) = true) ->
  (forall e, p (super_focusOutEvent e) = true) ->
  (forall e, p (super_mouseMoveEvent e) = true) ->
  (forall e, p (super_mouseReleaseEvent e) = true) ->
  (forall s, p (QApplication_setOverrideCursor s) = true) ->
  p QApplication_restoreOverrideCursor = true ->
  (forall c f, p (insertFrame c f) = true) ->
  (forall c u, p (QDesktopServices_openUrl (mkQUrl (c :: u))) = true) ->
  forall i w, forallb p (calls_of (step i w)) = true.
Proof.
  intros Hshow Hfocus Hkey Hinfo Hins Hin Hout Hmove Hrel Hset Hrest Hframe Hurl
         i w.
  rewrite step_calls.
  destruct i as [[e|e|e|e|e|e]| |f]; cbn [forallb];
    rewrite ?Hshow, ?Hfocus, ?Hin, ?Hout, ?Hmove; try reflexivity.
  - rewrite keyPressEvent_calls.
    destruct (paren_help _ _); [destruct (help_target w)|]; cbn [forallb];
      rewrite ?Hinfo, ?Hins, ?Hkey; reflexivity.
  - destruct (anchorAt (host w) (pos e)); rewrite ?Hset, ?Hrest; reflexivity.
  - rewrite mouseReleaseEvent_calls.
    destruct (anchor w) as [[|c u]|]; cbn [forallb];
      rewrite ?Hrel, ?Hurl, ?Hset; reflexivity.
  - cbn. rewrite Hframe. reflexivity.
Qed.

(** What one input adds to the counts of a log. *)
Lemma step_counts (i : input) (w : ControlWidget.t) :
  let log := calls_of (step i w) in
  let b (v : option Py.str) := if Py.truthy v then 1 else 0 in
  count is_super_mouseMoveEvent log = (if is_mouse_move i then 1 else 0) /\
  count is_cursor_call log
  = count is_super_mouseMoveEvent log + count is_openUrl log /\
  count is_key_delivery log = (if is_key_press i then 1 else 0) /\
  count is_openUrl log + b (anchor (state_of (step i w)))
  <= (if is_mouse_move i then 1 else 0) + b (anchor w).
Proof.
  cbn zeta. rewrite step_calls.
  destruct i as [[e|e|e|e|e|e]| |f]; cbn [step handle is_mouse_move is_key_press].
  - cbn. repeat split; lia.
  - rewrite keyPressEvent_calls.
    destruct (step_frame (Deliver (KeyPress e)) w) as (_ & _ & _ & Ha & _).
    cbn [step handle] in Ha. rewrite (Ha eq_refl).
    destruct (paren_help _ _); [destruct (help_target w)|]; cbn;
      repeat split; lia.
  - cbn. repeat split; lia.
  - cbn. repeat split; lia.
  - rewrite mouseMoveEvent_anchor.
    destruct (anchorAt (host w) (pos e)); cbn;
      repeat split; destruct (Py.truthy (anchor w)); lia.
  - rewrite mouseReleaseEvent_calls.
    rewrite (release_leaves_nothing_to_open e w).
    destruct (anchor w) as [[|c u]|]; cbn; repeat split; lia.
  - cbn. repeat split; lia.
  - cbn. repeat split; lia.
Qed.

End StepLogs.

(** ** Properties of whole runs of a ControlWidget *)

Section ControlRuns.

Context `{Host}.

Import ControlWidget.

(** X1. A mouse release opens what the last mouse move found, not what is
    under the pointer when the button is released: after a mouse move and
    any inputs that are not mouse events, the release opens the link
    [anchorAt] gave for the position of the move, on the host as it was
    then, and forwards the event when that was empty. *)
Theorem release_opens_what_the_last_move_found :
  forall (moved : QMouseEvent) (inputs : list input) (released : QMouseEvent)
         (w : ControlWidget.t),
    existsb is_mouse_event inputs = false ->
    let hit := anchorAt (host w) (pos moved) in
    let w' := state_of (run inputs (state_of (mouseMoveEvent moved w))) in
    calls_of (mouseReleaseEvent released w')
    = match hit with
      | [] => [super_mouseReleaseEvent released]
      | _ :: _ => [QDesktopServices_openUrl (mkQUrl hit);
                   QApplication_setOverrideCursor ArrowCursor]
      end.
Proof.
  intros moved inputs released w Hno; cbn zeta.
  rewrite mouseReleaseEvent_calls, (run_keeps_anchor _ Hno),
    mouseMoveEvent_anchor.
  destruct (anchorAt (host w) (pos moved)); reflexivity.
Qed.

(** X2. [anchor] is assigned by mouse events only and [current_prompt_pos]
    by key presses only: inputs without a mouse event leave [anchor] as it
    was, inputs without a key press leave [current_prompt_pos] as it was. *)
Theorem attributes_change_by_their_events_only :
  forall (inputs : list input) (w : ControlWidget.t),
    (existsb is_mouse_event inputs = false ->
     anchor (state_of (run inputs w)) = anchor w) /\
    (existsb is_key_press inputs = false ->
     current_prompt_pos (state_of (run inputs w)) = current_prompt_pos w).
Proof.
  intros inputs w. split; intros Hno.
  - apply run_keeps_anchor; exact Hno.
  - apply run_keeps_prompt_pos; exact Hno.
Qed.


(** X4. A link is opened once per hover: after a mouse release, whether it
    opened a link or not, every further release is forwarded and opens
    nothing until the mouse moves again. *)
Theorem second_release_is_forwarded :
  forall (first : QMouseEvent) (inputs : list input) (second : QMouseEvent)
         (w : ControlWidget.t),
    existsb is_mouse_move inputs = false ->
    calls_of (mouseReleaseEvent second
                (state_of (run inputs (state_of (mouseReleaseEvent first w)))))
    = [super_mouseReleaseEvent second].
Proof.
  intros first inputs second w Hno.
  rewrite mouseReleaseEvent_calls.
  pose proof (run_keeps_nothing_to_open inputs Hno
                (state_of (mouseReleaseEvent first w))
                (release_leaves_nothing_to_open first w)) as Hn.
  destruct (anchor _) as [[|c u]|]; [reflexivity | discriminate | reflexivity].
Qed.

(** X5. A run opens at most as many URLs as it has mouse moves, plus one
    when it starts on a non-empty anchor. *)
Theorem opened_urls_bounded_by_moves :
  forall (inputs : list input) (w : ControlWidget.t),
    count is_openUrl (calls_of (run inputs w))
    <= List.length (filter is_mouse_move inputs)
       + (if Py.truthy (anchor w) then 1 else 0).
Proof.
  assert (Hinv : forall inputs w,
             count is_openUrl (calls_of (run inputs w))
             + (if Py.truthy (anchor (state_of (run inputs w))) then 1 else 0)
             <= List.length (filter is_mouse_move inputs)
                + (if Py.truthy (anchor w) then 1 else 0)).
  { induction inputs as [|i rest IH]; intros w; [cbn; lia|].
    rewrite run_cons_calls, run_cons_state, count_app.
    specialize (IH (state_of (step i w))).
    destruct (step_counts i w) as (_ & _ & _ & Hstep).
    cbn [filter]. destruct (is_mouse_move i); cbn [List.length]; lia. }
  intros inputs w. specialize (Hinv inputs w).
  destruct (Py.truthy (anchor (state_of (run inputs w)))); lia.
Qed.

(** X6. The empty URL is never opened: every URL a run hands to
    [QDesktopServices.openUrl] is a non-empty string. *)
Theorem never_opens_the_empty_url :
  forall (inputs : list input) (w : ControlWidget.t) (u : Py.str),
    In (QDesktopServices_openUrl (mkQUrl u)) (calls_of (run inputs w)) ->
    u <> [].
Proof.
  intros inputs w u Hin Hu. subst u.
  assert (Hall : forallb url_nonempty (calls_of (run inputs w)) = true).
  { apply run_forallb. apply step_forallb; reflexivity. }
  rewrite forallb_forall in Hall.
  specialize (Hall _ Hin). discriminate.
Qed.

(** X9. Every key press delivered to a ControlWidget reaches the document
    exactly once, as the event handed to [QTextEdit.keyPressEvent] or as its
    text handed to [insert_text]; nothing else does. *)
Theorem key_presses_reach_the_document_once :
  forall (inputs : list input) (w : ControlWidget.t),
    count is_key_delivery (calls_of (run inputs w))
    = List.length (filter is_key_press inputs).
Proof.
  induction inputs as [|i rest IH]; intros w; [reflexivity|].
  rewrite run_cons_calls, count_app, IH.
  destruct (step_counts i w) as (_ & _ & Hkey & _). rewrite Hkey.
  cbn [filter]. destruct (is_key_press i); reflexivity.
Qed.

(** X10. The ['('] helper does not depend on the [current_prompt_pos] it
    finds: it assigns the parent's prompt position before it reads the line,
    so two widgets that differ in [current_prompt_pos] only end in the same
    state after the same calls. *)
Theorem helper_ignores_the_old_prompt_pos :
  forall (text : Py.str) (old : option Z) (w : ControlWidget.t),
    _key_paren_left text (set_current_prompt_pos old w)
    = _key_paren_left text w.
Proof.
  intros text old w.
  unfold _key_paren_left. handler_unfold.
  destruct (Py.truthy (get_current_line_to_cursor _ _)); cbn; [|reflexivity].
  destruct (get_last_obj _ _) as [o|]; cbn; [|reflexivity].
  destruct (_ && negb (Py.isdigit unicode_digit o)); reflexivity.
Qed.

(** X11. Every mouse move is forwarded, and the override cursor is touched
    once per mouse move and once per URL opened, by nothing else: in the log
    of a run the forwarded mouse moves are as many as the mouse moves
    delivered, and the cursor calls as many as the forwarded mouse moves and
    the opened URLs together. *)
Theorem cursor_calls_follow_moves_and_openings :
  forall (inputs : list input) (w : ControlWidget.t),
    let log := calls_of (run inputs w) in
    count is_super_mouseMoveEvent log = List.length (filter is_mouse_move inputs) /\
    count is_cursor_call log
    = count is_super_mouseMoveEvent log + count is_openUrl log.
Proof.
  induction inputs as [|i rest IH]; intros w; [split; reflexivity|].
  cbn zeta in *. rewrite run_cons_calls, !count_app.
  destruct (IH (state_of (step i w))) as (Hm & Hc).
  destruct (step_counts i w) as (Hm' & Hc' & _).
  rewrite Hm, Hc, Hm', Hc'. cbn [filter].
  destruct (is_mouse_move i); cbn [List.length]; split; lia.
Qed.

End ControlRuns.

(** ** Properties of whole runs of a PageControlWidget *)

Section PageRuns.

Context `{Host}.

Lemma page_handle_frame (cb : PageControlWidget.callback)
      (p : PageControlWidget.t) :
  PageControlWidget.found_results (state_of (PageControlWidget.handle cb p))
  = PageControlWidget.found_results p /\
  forallb page_call_only (calls_of (PageControlWidget.handle cb p)) = true.
Proof.
  destruct cb as [e|e|e|e]; cbn [PageControlWidget.handle];
    try (split; reflexivity).
  unfold PageControlWidget.keyPressEvent. handler_unfold.
  destruct (PageControlWidget.slash_find _ _); split; reflexivity.
Qed.

(** X8. A PageControlWidget only notifies and forwards: whatever callbacks
    it receives, [found_results] keeps its value (the empty list after
    [__init__]), and every call it makes emits [visibility_changed(True)],
    [focus_changed] or [show_find_widget], or forwards a key or focus event.
    It never inserts text, opens a URL or touches the cursor. *)
Theorem page_widget_only_notifies_and_forwards :
  forall (cbs : list PageControlWidget.callback) (p : PageControlWidget.t)
         (parent : option QWidget) (q : Q),
    PageControlWidget.found_results (state_of (page_run cbs p))
    = PageControlWidget.found_results p /\
    forallb page_call_only (calls_of (page_run cbs p)) = true /\
    PageControlWidget.found_results
      (state_of (page_run cbs (fst (PageControlWidget.__init__ parent q)))) = [].
Proof.
  assert (Hrun : forall cbs p,
             PageControlWidget.found_results (state_of (page_run cbs p))
             = PageControlWidget.found_results p /\
             forallb page_call_only (calls_of (page_run cbs p)) = true).
  { induction cbs as [|cb rest IH]; intros p; [split; reflexivity|].
    cbn [page_run]. rewrite state_of_bind, calls_of_bind, forallb_app.
    destruct (IH (state_of (PageControlWidget.handle cb p))) as (Hf & Hc).
    destruct (page_handle_frame cb p) as (Hf' & Hc').
    rewrite Hf, Hc, Hf', Hc'. split; reflexivity. }
  intros cbs p parent q.
  destruct (Hrun cbs p) as (Hf & Hc).
  repeat split; try assumption.
  destruct (Hrun cbs (fst (PageControlWidget.__init__ parent q))) as (Hf0 & _).
  rewrite Hf0. reflexivity.
Qed.

End PageRuns.

(** ** Whole runs on the small host *)

Section MoreRuns.

Import Toy.
Import ControlWidget.

Example two_clicks_open_once :
  count is_openUrl (calls_of (run two_clicks fresh)) = 1 /\
  count is_cursor_call (calls_of (run two_clicks fresh)) = 3 /\
  count is_key_delivery (calls_of (run two_clicks fresh)) = 1.
Proof. repeat split; reflexivity. Qed.

Lemma release_opens_what_the_last_move_found_witness :
  existsb is_mouse_event typing = false /\
  calls_of (mouseReleaseEvent elsewhere
              (state_of (run typing (state_of (mouseMoveEvent origin fresh)))))
  = [QDesktopServices_openUrl (mkQUrl url);
     QApplication_setOverrideCursor ArrowCursor].
Proof.
  split; [reflexivity|].
  exact (@release_opens_what_the_last_move_found Toy.types Toy.host
           origin typing elsewhere fresh eq_refl).
Defined.

Lemma attributes_change_by_their_events_only_witness :
  (existsb is_mouse_event typing = false /\
   anchor (state_of (run typing hovering)) = anchor hovering) /\
  (existsb is_key_press pointing = false /\
   current_prompt_pos (state_of (run pointing fresh)) = current_prompt_pos fresh).
Proof.
  split; (split; [reflexivity|]).
  - exact (proj1 (@attributes_change_by_their_events_only Toy.types Toy.host
                    typing hovering) eq_refl).
  - exact (proj2 (@attributes_change_by_their_events_only Toy.types Toy.host
                    pointing fresh) eq_refl).
Defined.

Lemma second_release_is_forwarded_witness :
  existsb is_mouse_move typing = false /\
  opens_url (calls_of (mouseReleaseEvent origin hovering)) = true /\
  calls_of (mouseReleaseEvent origin
              (state_of (run typing (state_of (mouseReleaseEvent origin hovering)))))
  = [super_mouseReleaseEvent origin].
Proof.
  split; [reflexivity|]. split; [reflexivity|].
  exact (@second_release_is_forwarded Toy.types Toy.host
           origin typing origin hovering eq_refl).
Defined.

Lemma never_opens_the_empty_url_witness :
  In (QDesktopServices_openUrl (mkQUrl url)) (calls_of (run two_clicks fresh)) /\
  url <> [].
Proof.
  assert (Hin : In (QDesktopServices_openUrl (mkQUrl url))
                   (calls_of (run two_clicks fresh))).
  { vm_compute. do 4 right. left. reflexivity. }
  split; [exact Hin|].
  exact (@never_opens_the_empty_url Toy.types Toy.host two_clicks fresh url Hin).
Defined.

End MoreRuns.
